(** * Wordle game board and towns service client

    A shallow embedding of the two TypeScript sources of the game front end:
    the [GameBoard] React component (the letter, row and board components,
    [constructBoards] and the fetch issued by the component body) and the
    game operations of [TownsServiceClient] with [unwrapOrThrowError].

    Conventions of the embedding.
    - A value that may be [undefined] is an [option]; [None] is [undefined].
    - A colour code is a JavaScript number; the codes the game uses are
      integers, so they are modelled in [Z].
    - A React element is modelled by the tree it renders: the chakra
      components with the props the source sets. Event handlers are closures
      and are not part of the tree.
    - A function that can throw returns a [Completion]. *)

From stdpp Require Import base list strings gmap pretty.

Set Warnings "-register-all".

Open Scope string_scope.
Open Scope list_scope.
Open Scope Z_scope.

(** ** JavaScript preliminaries *)

Module Js.

(** The errors the sources raise: [new Error(message)] and the
    [AssertionError] of a failed [assert(value)]. *)
Inductive Exn :=
| Error (message : string)
| AssertionError.

(** The outcome of a call: a returned value or a thrown exception. For an
    [async] function it is how its promise settles. *)
Inductive Completion (A : Type) :=
| Normal (a : A)
| Throw (e : Exn).
Arguments Normal {A} a.
Arguments Throw {A} e.

#[export] Instance Completion_ret : MRet Completion := fun A a => Normal a.

#[export] Instance Completion_bind : MBind Completion := fun A B k c =>
  match c with
  | Normal a => k a
  | Throw e => Throw e
  end.

(** Values of type [any], as an untyped response payload may be. *)
Inductive Val :=
| VNull
| VBool (b : bool)
| VNum (n : Z)
| VStr (s : string)
| VObj (fields : list (string * Val)).

(** Truthiness, as [assert] and [if] test it. *)
Class Truthy (T : Type) := truthy : T → bool.

#[export] Instance Val_truthy : Truthy Val := fun v =>
  match v with
  | VNull => false
  | VBool b => b
  | VNum n => negb (n =? 0)
  | VStr s => negb (String.eqb s "")
  | VObj _ => true
  end.

(** [!x] for [x : boolean | undefined]. *)
Definition not (x : option bool) : bool :=
  match x with
  | Some b => negb b
  | None => true
  end.

(** [`${x}`] for [x : string | undefined]. *)
Definition template (x : option string) : string :=
  match x with
  | Some s => s
  | None => "undefined"
  end.

(** [assert(value)] for an optional value: absent and falsy values fail. *)
Definition assert {T} `{Truthy T} (value : option T) : Completion T :=
  match value with
  | Some v => if truthy v then Normal v else Throw AssertionError
  | None => Throw AssertionError
  end.

(** [Array.from(s)]: the characters of [s], each as a string of its own.
    Words are over single-code-unit characters. *)
Fixpoint Array_from (s : string) : list string :=
  match s with
  | EmptyString => []
  | String c rest => String c EmptyString :: Array_from rest
  end.

(** [array.includes(x)] on an array of strings. *)
Definition includes (array : list string) (x : string) : bool :=
  bool_decide (x ∈ array).

(** [new Map(entries)]: the entries are set in order. *)
Definition Map_new (entries : list (Z * string)) : gmap Z string :=
  foldl (fun m kv => <[kv.1 := kv.2]> m) ∅ entries.

(** [map.get(key)] for [key : number | undefined]; no entry has the key
    [undefined]. *)
Definition Map_get (m : gmap Z string) (key : option Z) : option string :=
  match key with
  | Some k => m !! k
  | None => None
  end.

(** [n.toString()] for an array index. *)
Definition toString (n : nat) : string := pretty n.

(** A string is truthy unless it is empty. *)
#[export] Instance string_truthy : Truthy string := fun s => negb (String.eqb s "").

(** [a || b] for [a, b : string | undefined]: [a] when it is truthy, and
    [b] otherwise. *)
Definition or (a b : option string) : option string :=
  match a with
  | Some s => if truthy s then Some s else b
  | None => b
  end.

End Js.

Import Js.

(** ** The rendered tree *)

(** The chakra components the board uses, with the props the source sets on
    them; [Fragment] is the empty fragment the component starts from. *)
Inductive Element :=
| Fragment
| Button (key : option string) (size : string) (colorScheme : option string)
    (variant : option string) (children : option string)
| HStack (key : option string) (spacing : string) (children : list Element)
| VStack (padding : option Z) (align : option string) (children : list Element)
| Text (fontSize : string) (children : string)
| Input (size : string) (value : string) (isDisabled : bool).

#[export] Instance Element_inhabited : Inhabited Element := populate Fragment.

(** The children of a stack. *)
Definition childrenOf (e : Element) : list Element :=
  match e with
  | HStack _ _ cs => cs
  | VStack _ _ cs => cs
  | _ => []
  end.

(** The letter a button shows and the colour scheme it is drawn in. *)
Definition buttonLetter (e : Element) : option string :=
  match e with
  | Button _ _ _ _ children => children
  | _ => None
  end.

Definition buttonColor (e : Element) : option string :=
  match e with
  | Button _ _ colorScheme _ _ => colorScheme
  | _ => None
  end.

(** ** Letter, row and board components *)

Record WordleLetterProps := {
  letter : string;
  color : option Z
}.

Record WordleRowProps := {
  guessArray : list string;
  letterColors : list Z;
  showLetters : bool
}.

Definition letterColorMatch : gmap Z string :=
  Map_new [(0, "gray"); (1, "green"); (-1, "yellow")].

(** [WordleLetter]: one guessed letter in its colour. [key] is the key the
    caller gives the element. *)
Definition WordleLetter (key : option string) (props : WordleLetterProps) : Element :=
  Button key "sm" (Map_get letterColorMatch (color props)) None (Some (letter props)).

(** [WordleRow]: one guessed row; the colour of cell [index] is
    [letterColors[index]], which is [undefined] past the end of the array. *)
Definition WordleRow (key : option string) (props : WordleRowProps) : Element :=
  HStack key "12px"
    (imap (fun index guess =>
             WordleLetter (Some (toString index))
               {| letter := if showLetters props then guess else "";
                  color := letterColors props !! index |})
          (guessArray props)).

(** [BlankRow]: the loop pushes five outlined buttons without content. *)
Definition BlankRow : Element :=
  let blankRows :=
    foldl (fun blankRows (_ : nat) => blankRows ++ [Button None "sm" None (Some "outline") None])
          [] (seq 0 5) in
  HStack None "12px" blankRows.

(** [AllRows]: the loop runs only when [guessRows] is defined; [guessRows[i]]
    is read under the guard [guessRows.length > i]. *)
Definition AllRows (guessRows : option (list Element)) : Element :=
  let allRows :=
    match guessRows with
    | Some guessRows =>
        foldl (fun allRows i =>
                 allRows ++ [if (i <? length guessRows)%nat
                             then guessRows !!! i else BlankRow])
              [] (seq 0 6)
    | None => []
    end in
  VStack None None allRows.

(** ** Game state *)

(** Modelled from the spec: the declarations of [GameTypes] ([GameState], the
    team state and the guess) are not among the sources. The fields are the
    ones [constructBoards] reads: the roster and the guesses of a team, the
    word and the per-letter result of a guess. *)
Record Guess := {
  word : string;
  guessResult : list Z
}.

Record TeamState := {
  teamMembers : list string;
  guesses : list Guess
}.

Record GameState := {
  teamOneState : option TeamState;
  teamTwoState : option TeamState
}.

(** Modelled from the spec: the class [ConversationArea] is not among the
    sources. The component reads its label and tests its [game] field. *)
Record ConversationArea := {
  label : string;
  game : bool
}.

(** ** The component *)

(** What a run of the component body reads: the app state, the [gameover]
    prop, and the values of its hooks. *)
Record Closure := {
  currentTownID : string;
  sessionToken : string;
  gameover : bool;
  playerID : string;
  currentConversationArea : option ConversationArea;
  input : string;
  element : Element
}.

Section constructBoards.
Context (env : Closure) (gameState : GameState).

Definition redTeam : option bool :=
  (fun t => includes (teamMembers t) (playerID env)) <$> teamOneState gameState.
Definition blueTeam : option bool :=
  (fun t => includes (teamMembers t) (playerID env)) <$> teamTwoState gameState.
Definition redGuesses : option (list Guess) := guesses <$> teamOneState gameState.
Definition blueGuesses : option (list Guess) := guesses <$> teamTwoState gameState.

Definition yourTeamHeader : string :=
  if Js.not redTeam && Js.not blueTeam then "You are Spectating!" else "You are on a team!".
Definition displayText : string :=
  if gameover env then "Game Over" else yourTeamHeader.

Definition redRows : option (list Element) :=
  imap (fun index guess =>
          WordleRow (Some (toString index))
            {| guessArray := Array_from (word guess);
               letterColors := guessResult guess;
               showLetters := Js.not blueTeam || gameover env |})
    <$> redGuesses.
Definition blueRows : option (list Element) :=
  imap (fun index guess =>
          WordleRow (Some (toString index))
            {| guessArray := Array_from (word guess);
               letterColors := guessResult guess;
               showLetters := Js.not redTeam || gameover env |})
    <$> blueGuesses.

Definition redBoard : Element := AllRows redRows.
Definition blueBoard : Element := AllRows blueRows.

(** [constructBoards]: the element handed to [setElement]. *)
Definition constructBoards : Element :=
  VStack (Some 4) (Some "center")
    [ Text "xl" "Wordle";
      HStack None "24px"
        [ VStack None None [Text "sm" "Red Board"; redBoard];
          VStack None None [Text "sm" "Blue Board"; blueBoard] ];
      Text "lg" displayText;
      Input "sm" (input env) (Js.not redTeam && Js.not blueTeam) ].
End constructBoards.

(** ** The towns service client *)

Module TownsServiceClient.

(** The request payloads of the game operations. *)
Module GameLeaveTeamRequest.
Record t := {
  coveyTownID : string;
  sessionToken : string;
  playerID : string;
  conversationAreaLabel : string
}.
End GameLeaveTeamRequest.

Module GetGameStateRequest.
Record t := {
  coveyTownID : string;
  sessionToken : string;
  conversationAreaLabel : string
}.
End GetGameStateRequest.

(** Modelled from the spec: the type [GameType] of [GameTypes] is not among
    the sources; a game kind is taken as its name. *)
Module CreateGameRequest.
Record t := {
  coveyTownID : string;
  sessionToken : string;
  conversationAreaLabel : string;
  gameID : string
}.
End CreateGameRequest.

(** Modelled from the spec: the type [GameAction] of [GameTypes] is not
    among the sources; an action is an opaque payload, such as a guessed
    word. *)
Module UpdateGameRequest.
Record t := {
  coveyTownID : string;
  sessionToken : string;
  conversationAreaLabel : string;
  gameAction : Val
}.
End UpdateGameRequest.

Module GameJoinTeamRequest.
Record t := {
  coveyTownID : string;
  sessionToken : string;
  playerID : string;
  teamNumber : Z;
  conversationAreaLabel : string
}.
End GameJoinTeamRequest.

Module StartGameRequest.
Record t := {
  coveyTownID : string;
  sessionToken : string;
  conversationAreaLabel : string
}.
End StartGameRequest.

(** The body posted with a request. *)
Inductive RequestData :=
| CreateGameData (r : CreateGameRequest.t)
| GameJoinTeamData (r : GameJoinTeamRequest.t)
| GameLeaveTeamData (r : GameLeaveTeamRequest.t)
| GetGameStateData (r : GetGameStateRequest.t)
| StartGameData (r : StartGameRequest.t)
| UpdateGameData (r : UpdateGameRequest.t).

Record GameStateResponse := {
  state : GameState
}.

(** An object is truthy. *)
#[export] Instance GameStateResponse_truthy : Truthy GameStateResponse := fun _ => true.

(** Envelope that wraps any response from the server. *)
Record ResponseEnvelope (T : Type) := {
  isOK : bool;
  message : option string;
  response : option T
}.
Arguments isOK {T} _.
Arguments message {T} _.
Arguments response {T} _.

(** Of an axios response the client reads [data] only. *)
Record AxiosResponse (T : Type) := {
  data : ResponseEnvelope T
}.
Arguments data {T} _.

(** [this._axios.post(url, data)], at the payload type [T] that the result
    type of the calling operation fixes; the promise it returns may reject. *)
Definition Axios (T : Type) : Type :=
  string → RequestData → Completion (AxiosResponse T).

(** What [unwrapOrThrowError] returns: the payload, or the [{}] it returns
    in place of the payload when told to ignore the response. *)
Inductive Unwrapped (T : Type) :=
| Payload (x : T)
| EmptyObject.
Arguments Payload {T} x.
Arguments EmptyObject {T}.

Definition unwrapOrThrowError {T} `{Truthy T}
    (resp : AxiosResponse T) (ignoreResponse : bool) : Completion (Unwrapped T) :=
  if isOK (data resp) then
    if ignoreResponse then Normal EmptyObject
    else
      x ← assert (response (data resp));
      Normal (Payload x)
  else
    Throw (Error ("Error processing request: " +:+ template (message (data resp)))).

(** The game operations. Each awaits the post and unwraps the response with
    the default [ignoreResponse = false]. *)
Definition createGame (axios : Axios Val) (requestData : CreateGameRequest.t)
    : Completion (Unwrapped Val) :=
  responseWrapper ←
    axios ("/towns/" +:+ CreateGameRequest.coveyTownID requestData +:+ "/games")
          (CreateGameData requestData);
  unwrapOrThrowError responseWrapper false.

Definition addPlayerToGameTeam (axios : Axios Val) (requestData : GameJoinTeamRequest.t)
    : Completion (Unwrapped Val) :=
  responseWrapper ←
    axios ("/towns/" +:+ GameJoinTeamRequest.coveyTownID requestData +:+ "/joingameteam")
          (GameJoinTeamData requestData);
  unwrapOrThrowError responseWrapper false.

Definition removePlayerFromGameTeam (axios : Axios Val) (requestData : GameLeaveTeamRequest.t)
    : Completion (Unwrapped Val) :=
  responseWrapper ←
    axios ("/towns/" +:+ GameLeaveTeamRequest.coveyTownID requestData +:+ "/removeplayerfromteam")
          (GameLeaveTeamData requestData);
  unwrapOrThrowError responseWrapper false.

Definition getGameState (axios : Axios GameStateResponse) (requestData : GetGameStateRequest.t)
    : Completion (Unwrapped GameStateResponse) :=
  responseWrapper ←
    axios ("/towns/" +:+ GetGameStateRequest.coveyTownID requestData +:+ "/gamestate")
          (GetGameStateData requestData);
  unwrapOrThrowError responseWrapper false.

Definition startGame (axios : Axios Val) (requestData : StartGameRequest.t)
    : Completion (Unwrapped Val) :=
  responseWrapper ←
    axios ("/towns/" +:+ StartGameRequest.coveyTownID requestData +:+ "/startGame")
          (StartGameData requestData);
  unwrapOrThrowError responseWrapper false.

Definition inputGameAction (axios : Axios Val) (requestData : UpdateGameRequest.t)
    : Completion (Unwrapped Val) :=
  responseWrapper ←
    axios ("/towns/" +:+ UpdateGameRequest.coveyTownID requestData +:+ "/updategame")
          (UpdateGameData requestData);
  unwrapOrThrowError responseWrapper false.

(** *** Towns and conversation areas *)

(** Payload sent by client to create a Town. *)
Module TownCreateRequest.
Record t := {
  friendlyName : string;
  isPubliclyListed : bool
}.
End TownCreateRequest.

(** Response from the server for a Town create request. *)
Module TownCreateResponse.
Record t := {
  coveyTownID : string;
  coveyTownPassword : string
}.
End TownCreateResponse.

(** Payload sent by the client to delete a Town. *)
Module TownDeleteRequest.
Record t := {
  coveyTownID : string;
  coveyTownPassword : string
}.
End TownDeleteRequest.

(** Payload sent by the client to update a Town; the name and the listing
    flag are optional. *)
Module TownUpdateRequest.
Record t := {
  coveyTownID : string;
  coveyTownPassword : string;
  friendlyName : option string;
  isPubliclyListed : option bool
}.
End TownUpdateRequest.

Module TownJoinRequest.
Record t := {
  userName : string;
  coveyTownID : string
}.
End TownJoinRequest.

(** Modelled from the spec: the types [ServerPlayer] and
    [ServerConversationArea] are declared outside the two sources; the
    players and areas of a town are taken as untyped values. *)
Module TownJoinResponse.
Record t := {
  coveyUserID : string;
  coveySessionToken : string;
  providerVideoToken : string;
  currentPlayers : list Val;
  friendlyName : string;
  isPubliclyListed : bool;
  conversationAreas : list Val
}.
End TownJoinResponse.

Module CoveyTownInfo.
Record t := {
  friendlyName : string;
  coveyTownID : string;
  currentOccupancy : Z;
  maximumOccupancy : Z
}.
End CoveyTownInfo.

Module TownListResponse.
Record t := {
  towns : list CoveyTownInfo.t
}.
End TownListResponse.

(** Modelled from the spec: the type [ServerConversationArea] is declared
    outside the two sources; the area of the request is an untyped value. *)
Module ConversationAreaCreateRequest.
Record t := {
  coveyTownID : string;
  sessionToken : string;
  conversationArea : Val
}.
End ConversationAreaCreateRequest.

(** Objects are truthy. *)
#[export] Instance TownCreateResponse_truthy : Truthy TownCreateResponse.t := fun _ => true.
#[export] Instance TownListResponse_truthy : Truthy TownListResponse.t := fun _ => true.
#[export] Instance TownJoinResponse_truthy : Truthy TownJoinResponse.t := fun _ => true.

(** The body sent with a town request. *)
Inductive TownRequestData :=
| TownCreateData (r : TownCreateRequest.t)
| TownUpdateData (r : TownUpdateRequest.t)
| TownJoinData (r : TownJoinRequest.t)
| ConversationAreaCreateData (r : ConversationAreaCreateRequest.t).

(** [this._axios.post(url, data)] and [this._axios.patch(url, data)] of the
    town operations, and [this._axios.get(url)] and [this._axios.delete(url)],
    which send no body. *)
Definition AxiosSend (T : Type) : Type :=
  string → TownRequestData → Completion (AxiosResponse T).

Definition AxiosFetch (T : Type) : Type :=
  string → Completion (AxiosResponse T).

(** The client holds the axios instance created for its base URL. *)
Record Client := {
  baseURL : string
}.

(** The constructor: [serviceURL || process.env.REACT_APP_TOWNS_SERVICE_URL]
    is asserted and handed to [axios.create]. [envURL] is the value of the
    environment variable. *)
Definition constructor (serviceURL envURL : option string) : Completion Client :=
  let baseURL := Js.or serviceURL envURL in
  baseURL ← assert baseURL;
  Normal {| baseURL := baseURL |}.

Definition createTown (post : AxiosSend TownCreateResponse.t)
    (requestData : TownCreateRequest.t) : Completion (Unwrapped TownCreateResponse.t) :=
  responseWrapper ← post "/towns" (TownCreateData requestData);
  unwrapOrThrowError responseWrapper false.

Definition updateTown (patch : AxiosSend Val) (requestData : TownUpdateRequest.t)
    : Completion (Unwrapped Val) :=
  responseWrapper ←
    patch ("/towns/" +:+ TownUpdateRequest.coveyTownID requestData)
          (TownUpdateData requestData);
  unwrapOrThrowError responseWrapper true.

Definition deleteTown (delete : AxiosFetch Val) (requestData : TownDeleteRequest.t)
    : Completion (Unwrapped Val) :=
  responseWrapper ←
    delete ("/towns/" +:+ TownDeleteRequest.coveyTownID requestData
            +:+ "/" +:+ TownDeleteRequest.coveyTownPassword requestData);
  unwrapOrThrowError responseWrapper true.

Definition listTowns (get : AxiosFetch TownListResponse.t)
    : Completion (Unwrapped TownListResponse.t) :=
  responseWrapper ← get "/towns";
  unwrapOrThrowError responseWrapper false.

Definition joinTown (post : AxiosSend TownJoinResponse.t)
    (requestData : TownJoinRequest.t) : Completion (Unwrapped TownJoinResponse.t) :=
  responseWrapper ← post "/sessions" (TownJoinData requestData);
  unwrapOrThrowError responseWrapper false.

Definition createConversation (post : AxiosSend Val)
    (requestData : ConversationAreaCreateRequest.t) : Completion (Unwrapped Val) :=
  responseWrapper ←
    post ("/towns/" +:+ ConversationAreaCreateRequest.coveyTownID requestData
          +:+ "/conversationAreas")
         (ConversationAreaCreateData requestData);
  unwrapOrThrowError responseWrapper false.

End TownsServiceClient.

(** ** The render loop *)

Module TSC := TownsServiceClient.

(** The request the component's [getGameState] sends for an area. *)
Definition fetchRequest (env : Closure) (convoArea : ConversationArea)
    : TSC.GetGameStateRequest.t :=
  {| TSC.GetGameStateRequest.coveyTownID := currentTownID env;
     TSC.GetGameStateRequest.sessionToken := sessionToken env;
     TSC.GetGameStateRequest.conversationAreaLabel := label convoArea |}.

(** [getGameState] of the component: [stateInfo.state], which is [undefined]
    on an object without that field. *)
Definition getGameState (axios : TSC.Axios TSC.GameStateResponse)
    (env : Closure) (convoArea : ConversationArea) : Completion (option GameState) :=
  stateInfo ← TSC.getGameState axios (fetchRequest env convoArea);
  Normal (match stateInfo with
          | TSC.Payload r => Some (TSC.state r)
          | TSC.EmptyObject => None
          end).

(** A fetch in flight: the area it asks about and the closure of the run of
    the body that issued it; the [then] callback runs [constructBoards] of
    that closure. *)
Record Fetch := {
  area : ConversationArea;
  issuedBy : Closure
}.

(** A mounted component: its current closure and the fetches in flight. *)
Record Session := {
  hooks : Closure;
  inFlight : list Fetch
}.

Definition gameActive (env : Closure) : bool :=
  match currentConversationArea env with
  | Some convoArea => game convoArea
  | None => false
  end.

(** One run of the body of [GameBoard]: when the area has a game the state
    is fetched, with no look at what is in flight; the body returns the
    current element. *)
Definition GameBoard (s : Session) : Session * Element :=
  let env := hooks s in
  let s' :=
    match currentConversationArea env with
    | Some convoArea =>
        if game convoArea
        then {| hooks := env;
                inFlight := inFlight s ++ [{| area := convoArea; issuedBy := env |}] |}
        else s
    | None => s
    end in
  (s', element env).

(** [setElement(e)]: the state hook takes the new element, which is a fresh
    object, so React runs the body again. *)
Definition setElement (e : Element) (s : Session) : Session :=
  let env := hooks s in
  (GameBoard
     {| hooks := {| currentTownID := currentTownID env;
                    sessionToken := sessionToken env;
                    gameover := gameover env;
                    playerID := playerID env;
                    currentConversationArea := currentConversationArea env;
                    input := input env;
                    element := e |};
        inFlight := inFlight s |}).1.

(** What happens to a session: the body is run (an activation), or the
    post of the [k]-th fetch in flight settles with [outcome]. *)
Inductive Event :=
| Activate
| Settle (k : nat) (outcome : Completion (TSC.AxiosResponse TSC.GameStateResponse)).

(** When a fetch settles its [then] callback runs [constructBoards] on the
    state; a rejected fetch, or a callback that throws on an [undefined]
    state, leaves the element as it is. *)
Definition step (s : Session) (ev : Event) : Session :=
  match ev with
  | Activate => (GameBoard s).1
  | Settle k outcome =>
      match inFlight s !! k with
      | None => s
      | Some f =>
          let s1 := {| hooks := hooks s; inFlight := delete k (inFlight s) |} in
          match getGameState (fun _ _ => outcome) (issuedBy f) (area f) with
          | Normal (Some gameState) =>
              setElement (constructBoards (issuedBy f) gameState) s1
          | _ => s1
          end
      end
  end.

Definition run (s : Session) (events : list Event) : Session :=
  foldl step s events.

(** ** Vocabulary of the statements *)

Inductive Team := Red | Blue.

Definition opposing (X : Team) : Team :=
  match X with
  | Red => Blue
  | Blue => Red
  end.

(** Team one plays the red board and team two the blue one. *)
Definition teamState (X : Team) (gameState : GameState) : option TeamState :=
  match X with
  | Red => teamOneState gameState
  | Blue => teamTwoState gameState
  end.

Definition board (X : Team) (env : Closure) (gameState : GameState) : Element :=
  match X with
  | Red => redBoard env gameState
  | Blue => blueBoard env gameState
  end.

(** The rows of a board. *)
Definition rowsOf (X : Team) (env : Closure) (gameState : GameState) : list Element :=
  childrenOf (board X env gameState).

(** [P] is on the roster of team [X]; an absent team has no members. *)
Definition isMember (P : string) (X : Team) (gameState : GameState) : Prop :=
  ∃ t, teamState X gameState = Some t ∧ P ∈ teamMembers t.

(** The visibility rule in the words of the specification: the letters of
    team [X] are shown to [P] when [P] is not on the opposing team, or the
    game is over. *)
Definition lettersShown (P : string) (X : Team) (gameState : GameState) (gameOver : bool) : Prop :=
  ¬ isMember P (opposing X) gameState ∨ gameOver = true.

(** The [showLetters] flag the source computes for the rows of a team. *)
Definition showLettersOf (X : Team) (env : Closure) (gameState : GameState) : bool :=
  match X with
  | Red => Js.not (blueTeam env gameState) || gameover env
  | Blue => Js.not (redTeam env gameState) || gameover env
  end.

(** The row a guess is rendered as at index [i], with its letters shown or
    withheld. *)
Definition guessRow (shown : bool) (i : nat) (g : Guess) : Element :=
  WordleRow (Some (toString i))
    {| guessArray := Array_from (word g);
       letterColors := guessResult g;
       showLetters := shown |}.

(** A cell that is empty and unfilled: no letter and no colour, outlined. *)
Definition blankCell : Element := Button None "sm" None (Some "outline") None.

(** The display categories of the specification and its colour mapping. *)
Inductive DisplayCategory := displaced | absent | correct.

Definition ColorMapping (code : Z) : option DisplayCategory :=
  if code =? -1 then Some displaced
  else if code =? 0 then Some absent
  else if code =? 1 then Some correct
  else None.

(** The colour scheme a category is drawn in: the colours of the game, gray
    for an absent letter, green for a correct one, yellow for a displaced
    one. *)
Definition categoryColor (c : DisplayCategory) : string :=
  match c with
  | displaced => "yellow"
  | absent => "gray"
  | correct => "green"
  end.

(** The guess input fields among the children of a view, as their
    [isDisabled] flags. *)
Definition inputFlags (view : Element) : list bool :=
  omap (fun e => match e with Input _ _ d => Some d | _ => None end) (childrenOf view).

(** The bare success envelope: [{isOK: true}] and no payload. *)
Definition bareSuccess {T} (msg : option string) : TSC.AxiosResponse T :=
  {| TSC.data := {| TSC.isOK := true; TSC.message := msg; TSC.response := None |} |}.

(** ** Sample sessions *)

(** The scenario of the specification: team one has guessed twice, team two
    not yet. *)
Definition crane : Guess := {| word := "CRANE"; guessResult := [0; 1; -1; 0; 0] |}.
Definition saute : Guess := {| word := "SAUTE"; guessResult := [1; 1; 1; 1; 1] |}.

Definition teamOne : TeamState := {| teamMembers := ["alice"]; guesses := [crane; saute] |}.
Definition teamTwo : TeamState := {| teamMembers := ["bob"]; guesses := [] |}.

Definition scenario : GameState :=
  {| teamOneState := Some teamOne; teamTwoState := Some teamTwo |}.

(** Before the game starts neither team is there. *)
Definition notStarted : GameState :=
  {| teamOneState := None; teamTwoState := None |}.

(** Team one with a full board, and with one guess more than the board
    holds. *)
Definition sixGuesses : GameState :=
  {| teamOneState := Some {| teamMembers := ["alice"]; guesses := replicate 6 crane |};
     teamTwoState := Some teamTwo |}.

Definition sevenGuesses : GameState :=
  {| teamOneState :=
       Some {| teamMembers := ["alice"]; guesses := replicate 6 crane ++ [saute] |};
     teamTwoState := Some teamTwo |}.

(** The closure of player [P] in the lounge, which has a game. *)
Definition viewer (P : string) (over : bool) : Closure :=
  {| currentTownID := "town";
     sessionToken := "token";
     gameover := over;
     playerID := P;
     currentConversationArea := Some {| label := "lounge"; game := true |};
     input := "";
     element := Fragment |}.

(** The same player after typing into the input, in another area. *)
Definition typing (P : string) (over : bool) : Closure :=
  {| currentTownID := "town";
     sessionToken := "token";
     gameover := over;
     playerID := P;
     currentConversationArea := None;
     input := "CRA";
     element := Text "lg" "Game Over" |}.

(** A freshly mounted component with nothing in flight. *)
Definition mounted : Session := {| hooks := viewer "bob" false; inFlight := [] |}.

(** The same component after its first activation: one fetch in flight. *)
Definition fetching : Session := run mounted [Activate].

(** The envelope of a rejected request. *)
Definition rejected : TSC.AxiosResponse Val :=
  {| TSC.data := {| TSC.isOK := false; TSC.message := Some "m"; TSC.response := None |} |}.

(** The envelope that carries a game state. *)
Definition stateEnvelope (gameState : GameState) : TSC.AxiosResponse TSC.GameStateResponse :=
  {| TSC.data := {| TSC.isOK := true;
                    TSC.message := None;
                    TSC.response := Some {| TSC.state := gameState |} |} |}.

(** ** Vocabulary of the further statements *)

(** The status line of a view: the large texts among its children. *)
Definition statusTexts (view : Element) : list string :=
  omap (fun e => match e with
                 | Text fontSize s => if String.eqb fontSize "lg" then Some s else None
                 | _ => None
                 end)
       (childrenOf view).

(** Guesses of the same shape: words of the same length with the same
    per-letter results. *)
Definition sameShape (g1 g2 : Guess) : Prop :=
  String.length (word g1) = String.length (word g2) ∧ guessResult g1 = guessResult g2.

(** A request was answered with a success envelope that carries [x]. *)
Definition answers {T} (c : Completion (TSC.AxiosResponse T)) (x : T) : Prop :=
  ∃ resp, c = Normal resp
          ∧ TSC.isOK (TSC.data resp) = true
          ∧ TSC.response (TSC.data resp) = Some x.

(** A request was answered with a success envelope, with or without a
    payload. *)
Definition acknowledged {T} (c : Completion (TSC.AxiosResponse T)) : Prop :=
  ∃ resp, c = Normal resp ∧ TSC.isOK (TSC.data resp) = true.

(** A request was answered with a failure envelope; the error it is turned
    into. *)
Definition refusal {T} (c : Completion (TSC.AxiosResponse T)) (e : Exn) : Prop :=
  ∃ resp, c = Normal resp
          ∧ TSC.isOK (TSC.data resp) = false
          ∧ e = Error ("Error processing request: " +:+ template (TSC.message (TSC.data resp))).

(** The game state a settled post delivers: the one of a success envelope
    with a payload; a rejected post, a failure envelope and a success
    envelope without payload deliver none. *)
Definition delivers (outcome : Completion (TSC.AxiosResponse TSC.GameStateResponse))
    : option GameState :=
  match outcome with
  | Normal resp =>
      if TSC.isOK (TSC.data resp)
      then TSC.state <$> TSC.response (TSC.data resp)
      else None
  | Throw _ => None
  end.

(** Events that keep the loop going: activations, and posts that settle
    with a game state. *)
Definition keepsGoing (ev : Event) : Prop :=
  match ev with
  | Activate => True
  | Settle _ outcome => is_Some (delivers outcome)
  end.

(** The scenario with other words of the same shape. *)
Definition otherWords : GameState :=
  {| teamOneState :=
       Some {| teamMembers := ["alice"];
               guesses := [ {| word := "BLIMP"; guessResult := [0; 1; -1; 0; 0] |};
                            {| word := "FUDGY"; guessResult := [1; 1; 1; 1; 1] |} ] |};
     teamTwoState := Some teamTwo |}.

(** A player in an area without a game. *)
Definition idle : Session := {| hooks := typing "bob" false; inFlight := [] |}.

(** The envelope of an acknowledged request, with an empty payload. *)
Definition acked : TSC.AxiosResponse Val :=
  {| TSC.data := {| TSC.isOK := true; TSC.message := None; TSC.response := Some (VObj []) |} |}.

(** ** Lemmas on the components *)

Lemma BlankRow_cells : BlankRow = HStack None "12px" (replicate 5 blankCell).
Proof. reflexivity. Qed.

Lemma AllRows_defined (guessRows : list Element) :
  AllRows (Some guessRows) =
  VStack None None (take 6 guessRows ++ replicate (6 - length guessRows) BlankRow).
Proof.
  unfold AllRows.
  destruct guessRows as [|r0 [|r1 [|r2 [|r3 [|r4 [|r5 rest]]]]]]; reflexivity.
Qed.

Lemma AllRows_undefined : AllRows None = VStack None None [].
Proof. reflexivity. Qed.

(** The flag [!team] of the source against roster membership. *)
Lemma not_team_flag (P : string) (X : Team) (gameState : GameState) :
  Js.not ((fun t => includes (teamMembers t) P) <$> teamState X gameState) = true
  ↔ ¬ isMember P X gameState.
Proof.
  unfold isMember. destruct (teamState X gameState) as [t|]; simpl.
  - unfold includes. rewrite negb_true_iff, bool_decide_eq_false. split.
    + intros Hn (t' & [= <-] & Hin). done.
    + intros Hn Hin. apply Hn. eauto.
  - split; [|done]. intros _ (t & ? & _). done.
Qed.

Lemma showLettersOf_spec (X : Team) (env : Closure) (gameState : GameState) :
  showLettersOf X env gameState = true
  ↔ lettersShown (playerID env) X gameState (gameover env).
Proof.
  unfold lettersShown. rewrite <- not_team_flag.
  destruct X; unfold showLettersOf, blueTeam, redTeam; simpl;
    rewrite orb_true_iff; done.
Qed.

(** The rows of a board: the guesses in order, cut at six, then blank rows
    up to six; no rows at all for an absent team. *)
Lemma rowsOf_present (X : Team) (env : Closure) (gameState : GameState) (t : TeamState) :
  teamState X gameState = Some t →
  rowsOf X env gameState =
  take 6 (imap (guessRow (showLettersOf X env gameState)) (guesses t))
  ++ replicate (6 - length (guesses t)) BlankRow.
Proof.
  intros Ht. unfold rowsOf.
  destruct X; simpl in Ht; unfold board, redBoard, blueBoard, redRows, blueRows,
    redGuesses, blueGuesses; rewrite Ht; cbn [fmap option_fmap option_map];
    rewrite AllRows_defined; cbn [childrenOf]; rewrite length_imap; reflexivity.
Qed.

Lemma rowsOf_absent (X : Team) (env : Closure) (gameState : GameState) :
  teamState X gameState = None → rowsOf X env gameState = [].
Proof.
  intros Ht. unfold rowsOf.
  destruct X; simpl in Ht; unfold board, redBoard, blueBoard, redRows, blueRows,
    redGuesses, blueGuesses; rewrite Ht; reflexivity.
Qed.

Lemma rowsOf_guess (X : Team) (env : Closure) (gameState : GameState)
    (t : TeamState) (i : nat) (g : Guess) :
  teamState X gameState = Some t → (i < 6)%nat → guesses t !! i = Some g →
  rowsOf X env gameState !! i = Some (guessRow (showLettersOf X env gameState) i g).
Proof.
  intros Ht Hi Hg. rewrite (rowsOf_present _ _ _ _ Ht).
  rewrite lookup_app_l.
  - rewrite lookup_take_lt by done. rewrite list_lookup_imap, Hg. done.
  - rewrite length_take, length_imap. apply lookup_lt_Some in Hg. lia.
Qed.

Lemma rowsOf_blank (X : Team) (env : Closure) (gameState : GameState)
    (t : TeamState) (i : nat) :
  teamState X gameState = Some t → (i < 6)%nat → guesses t !! i = None →
  rowsOf X env gameState !! i = Some BlankRow.
Proof.
  intros Ht Hi Hg. rewrite (rowsOf_present _ _ _ _ Ht).
  apply lookup_ge_None in Hg.
  rewrite lookup_app_r; rewrite length_take, length_imap; [|lia].
  apply lookup_replicate. split; [done | lia].
Qed.

Lemma rowsOf_length (X : Team) (env : Closure) (gameState : GameState) (t : TeamState) :
  teamState X gameState = Some t → length (rowsOf X env gameState) = 6%nat.
Proof.
  intros Ht. rewrite (rowsOf_present _ _ _ _ Ht).
  rewrite length_app, length_take, length_imap, length_replicate. lia.
Qed.

Lemma Array_from_nonempty (s : string) (j : nat) (ch : string) :
  Array_from s !! j = Some ch → ch ≠ "".
Proof.
  revert j. induction s as [|c rest IH]; intros [|j]; simpl; try done.
  - intros [= <-]. done.
  - apply IH.
Qed.

(** ** Visibility *)

(** C1. For a team [X] that has a guess at row [i] of its board, the row
    shown to the observer has one cell per letter of the word; a cell shows
    its guessed letter if and only if the observer is not a member of the
    team opposing [X] or the game is over, and shows the empty string
    otherwise; the cell's colour is the one of the letter's colour code
    whoever observes. *)
Theorem letters_gated_colors_shown (X : Team) (env : Closure) (gameState : GameState)
    (t : TeamState) (i : nat) (g : Guess) :
  teamState X gameState = Some t → (i < 6)%nat → guesses t !! i = Some g →
  ∃ row,
    rowsOf X env gameState !! i = Some row ∧
    length (childrenOf row) = length (Array_from (word g)) ∧
    ∀ j ch, Array_from (word g) !! j = Some ch →
      ∃ cell,
        childrenOf row !! j = Some cell ∧
        (buttonLetter cell = Some ch
         ↔ lettersShown (playerID env) X gameState (gameover env)) ∧
        (¬ lettersShown (playerID env) X gameState (gameover env)
         → buttonLetter cell = Some "") ∧
        buttonColor cell = Map_get letterColorMatch (guessResult g !! j).
Proof.
  intros Ht Hi Hg. eexists. split; [by apply (rowsOf_guess X env gameState t)|].
  unfold guessRow, WordleRow. cbn [childrenOf guessArray letterColors showLetters].
  split; [apply length_imap|].
  intros j ch Hch. eexists. split; [by rewrite list_lookup_imap, Hch|].
  cbn [WordleLetter buttonLetter buttonColor letter color].
  pose proof (showLettersOf_spec X env gameState) as Hspec.
  destruct (showLettersOf X env gameState).
  - repeat split; try done.
    + intros _. by apply Hspec.
    + intros Hn. destruct Hn. by apply Hspec.
  - repeat split; try done.
    + intros [= Heq]. symmetry in Heq. by apply Array_from_nonempty in Hch.
    + intros Hs. apply Hspec in Hs. done.
Qed.

Lemma letters_gated_colors_shown_witness :
  ∃ row,
    rowsOf Red (viewer "bob" false) scenario !! 0%nat = Some row ∧
    length (childrenOf row) = length (Array_from (word crane)) ∧
    ∀ j ch, Array_from (word crane) !! j = Some ch →
      ∃ cell,
        childrenOf row !! j = Some cell ∧
        (buttonLetter cell = Some ch
         ↔ lettersShown "bob" Red scenario false) ∧
        (¬ lettersShown "bob" Red scenario false → buttonLetter cell = Some "") ∧
        buttonColor cell = Map_get letterColorMatch (guessResult crane !! j).
Proof.
  apply (letters_gated_colors_shown Red (viewer "bob" false) scenario teamOne 0 crane);
    [reflexivity | lia | reflexivity].
Defined.

(** The scenario of the specification, as the member of team two sees the
    red board before the game is over: colours without letters, then blank
    rows. *)
Example scenario_opponent_view :
  rowsOf Red (viewer "bob" false) scenario =
  [ HStack (Some "0") "12px"
      [ Button (Some "0") "sm" (Some "gray") None (Some "");
        Button (Some "1") "sm" (Some "green") None (Some "");
        Button (Some "2") "sm" (Some "yellow") None (Some "");
        Button (Some "3") "sm" (Some "gray") None (Some "");
        Button (Some "4") "sm" (Some "gray") None (Some "") ];
    HStack (Some "1") "12px"
      [ Button (Some "0") "sm" (Some "green") None (Some "");
        Button (Some "1") "sm" (Some "green") None (Some "");
        Button (Some "2") "sm" (Some "green") None (Some "");
        Button (Some "3") "sm" (Some "green") None (Some "");
        Button (Some "4") "sm" (Some "green") None (Some "") ];
    BlankRow; BlankRow; BlankRow; BlankRow ].
Proof. vm_compute. reflexivity. Qed.

(** A spectator sees the letters before the game is over, and so does the
    member of team two once it is. *)
Example scenario_spectator_view :
  rowsOf Red (viewer "carol" false) scenario !! 0%nat = Some (guessRow true 0 crane)
  ∧ rowsOf Red (viewer "bob" true) scenario !! 0%nat = Some (guessRow true 0 crane)
  ∧ rowsOf Blue (viewer "carol" false) scenario = replicate 6 BlankRow.
Proof. vm_compute. done. Qed.

(** ** The grid *)

(** C2, as stated, fails for an absent team: before the game starts the
    red board has no rows, not six. *)
Lemma absent_team_board_has_no_rows :
  teamState Red notStarted = None
  ∧ rowsOf Red (viewer "bob" false) notStarted = []
  ∧ length (rowsOf Red (viewer "bob" false) notStarted) ≠ 6%nat.
Proof. vm_compute. done. Qed.

(** C2, amended. For a team whose state is present the board has exactly
    six rows, whatever the number of guesses: row [i] is the rendering of
    the guess at index [i] when there is one, and otherwise a blank row of
    five empty, unfilled cells. For an absent team the board has no rows. *)
Theorem six_rows_when_team_present (X : Team) (env : Closure) (gameState : GameState) :
  match teamState X gameState with
  | Some t =>
      length (rowsOf X env gameState) = 6%nat ∧
      ∀ i, (i < 6)%nat →
        rowsOf X env gameState !! i =
        Some (match guesses t !! i with
              | Some g => guessRow (showLettersOf X env gameState) i g
              | None => HStack None "12px" (replicate 5 blankCell)
              end)
  | None => rowsOf X env gameState = []
  end.
Proof.
  destruct (teamState X gameState) as [t|] eqn:Ht.
  - split; [by apply (rowsOf_length X env gameState t)|].
    intros i Hi. destruct (guesses t !! i) as [g|] eqn:Hg.
    + by apply (rowsOf_guess X env gameState t).
    + rewrite <- BlankRow_cells. by apply (rowsOf_blank X env gameState t).
  - by apply rowsOf_absent.
Qed.

(** C6, as stated, fails on a seventh guess: the board is derived without
    any failure and is the board of the first six guesses. *)
Lemma seventh_guess_dropped_silently :
  (guesses <$> teamState Red sevenGuesses) = Some (replicate 6 crane ++ [saute])
  ∧ board Red (viewer "alice" false) sevenGuesses
    = board Red (viewer "alice" false) sixGuesses
  ∧ guessRow true 6 saute ∉ rowsOf Red (viewer "alice" false) sevenGuesses.
Proof.
  split; [reflexivity|]. split; [vm_compute; reflexivity|].
  rewrite list_elem_of_In. vm_compute. intros H.
  repeat (destruct H as [H|H]; [discriminate H|]). exact H.
Qed.

(** C6, amended. The rows of a present team are its guesses in submission
    order: for [i] below six, the guess at index [i] is rendered at row [i].
    The rows are the first six guesses followed by blank rows up to six, so
    guesses from index six on are left out and no row lies beyond the
    sixth. *)
Theorem guesses_in_submission_order (X : Team) (env : Closure) (gameState : GameState)
    (t : TeamState) :
  teamState X gameState = Some t →
  rowsOf X env gameState =
    take 6 (imap (guessRow (showLettersOf X env gameState)) (guesses t))
    ++ replicate (6 - length (guesses t)) BlankRow
  ∧ (∀ i g, (i < 6)%nat → guesses t !! i = Some g →
       rowsOf X env gameState !! i = Some (guessRow (showLettersOf X env gameState) i g))
  ∧ (∀ i, (6 ≤ i)%nat → rowsOf X env gameState !! i = None).
Proof.
  intros Ht. split; [by apply rowsOf_present|]. split.
  - intros i g Hi Hg. by apply (rowsOf_guess X env gameState t).
  - intros i Hi. apply lookup_ge_None.
    rewrite (rowsOf_length X env gameState t Ht). done.
Qed.

Lemma guesses_in_submission_order_witness :
  rowsOf Red (viewer "alice" false) sevenGuesses =
    take 6 (imap (guessRow (showLettersOf Red (viewer "alice" false) sevenGuesses))
              (replicate 6 crane ++ [saute]))
    ++ replicate (6 - length (replicate 6 crane ++ [saute])) BlankRow
  ∧ (∀ i g, (i < 6)%nat → (replicate 6 crane ++ [saute]) !! i = Some g →
       rowsOf Red (viewer "alice" false) sevenGuesses !! i
       = Some (guessRow (showLettersOf Red (viewer "alice" false) sevenGuesses) i g))
  ∧ (∀ i, (6 ≤ i)%nat → rowsOf Red (viewer "alice" false) sevenGuesses !! i = None).
Proof.
  apply (guesses_in_submission_order Red (viewer "alice" false) sevenGuesses
           {| teamMembers := ["alice"]; guesses := replicate 6 crane ++ [saute] |}).
  reflexivity.
Defined.

(** ** The colour mapping *)

Lemma letterColorMatch_get (code : Z) :
  Map_get letterColorMatch (Some code) = categoryColor <$> ColorMapping code.
Proof.
  unfold letterColorMatch, Map_new, Map_get, ColorMapping. cbn [foldl fst snd].
  destruct (code =? -1) eqn:Hm; [apply Z.eqb_eq in Hm as ->; by vm_compute|].
  destruct (code =? 0) eqn:H0; [apply Z.eqb_eq in H0 as ->; by vm_compute|].
  destruct (code =? 1) eqn:H1; [apply Z.eqb_eq in H1 as ->; by vm_compute|].
  apply Z.eqb_neq in Hm, H0, H1.
  rewrite !lookup_insert_ne by done. apply lookup_empty.
Qed.

(** C4. On the colour codes -1, 0 and 1 the mapping is the one from -1 to
    the displaced category, 0 to the absent one and 1 to the correct one,
    and a cell with such a code is the button drawn in the colour of that
    category. *)
Theorem color_mapping_on_domain (key : option string) (l : string) (code : Z) :
  code ∈ [-1; 0; 1] →
  ∃ category,
    ColorMapping code = Some category
    ∧ category = (if code =? -1 then displaced else if code =? 0 then absent else correct)
    ∧ WordleLetter key {| letter := l; color := Some code |}
      = Button key "sm" (Some (categoryColor category)) None (Some l).
Proof.
  intros Hin. unfold WordleLetter. cbn [color letter].
  rewrite letterColorMatch_get.
  repeat (apply elem_of_cons in Hin as [->|Hin]); [| | |by apply elem_of_nil in Hin];
    eexists; (split; [reflexivity|]); split; reflexivity.
Qed.

Lemma color_mapping_on_domain_witness :
  ∃ category,
    ColorMapping (-1) = Some category
    ∧ category = displaced
    ∧ WordleLetter (Some "2") {| letter := "A"; color := Some (-1) |}
      = Button (Some "2") "sm" (Some (categoryColor category)) None (Some "A").
Proof.
  apply (color_mapping_on_domain (Some "2") "A" (-1)).
  apply list_elem_of_here.
Defined.

(** C5, as stated, fails: for the colour code 2 the letter is rendered, as
    a button without a colour scheme. *)
Lemma color_code_two_is_rendered :
  (2 ∉ [-1; 0; 1])
  ∧ WordleLetter (Some "0") {| letter := "A"; color := Some 2 |}
    = Button (Some "0") "sm" None None (Some "A").
Proof.
  split; [|by vm_compute].
  intros Hin. repeat (apply elem_of_cons in Hin as [Hin|Hin]; [discriminate Hin|]).
  by apply elem_of_nil in Hin.
Qed.

(** C5, amended. For a colour code outside -1, 0 and 1, and for a missing
    colour code, the lookup finds no colour and the cell is the button
    without a colour scheme; the letter is rendered all the same. *)
Theorem color_outside_domain_undefined (key : option string) (l : string) (code : Z) :
  code ∉ [-1; 0; 1] →
  Map_get letterColorMatch (Some code) = None
  ∧ WordleLetter key {| letter := l; color := Some code |}
    = Button key "sm" None None (Some l)
  ∧ WordleLetter key {| letter := l; color := None |}
    = Button key "sm" None None (Some l).
Proof.
  intros Hout.
  assert (Map_get letterColorMatch (Some code) = None) as Hget.
  { rewrite letterColorMatch_get. unfold ColorMapping.
    destruct (code =? -1) eqn:Hm; [apply Z.eqb_eq in Hm as ->; destruct Hout; set_solver|].
    destruct (code =? 0) eqn:H0; [apply Z.eqb_eq in H0 as ->; destruct Hout; set_solver|].
    destruct (code =? 1) eqn:H1; [apply Z.eqb_eq in H1 as ->; destruct Hout; set_solver|].
    reflexivity. }
  split; [exact Hget|]. unfold WordleLetter. cbn [color letter].
  rewrite Hget. split; reflexivity.
Qed.

Lemma color_outside_domain_undefined_witness :
  Map_get letterColorMatch (Some 7) = None
  ∧ WordleLetter None {| letter := "Q"; color := Some 7 |}
    = Button None "sm" None None (Some "Q")
  ∧ WordleLetter None {| letter := "Q"; color := None |}
    = Button None "sm" None None (Some "Q").
Proof.
  apply (color_outside_domain_undefined None "Q" 7).
  intros Hin. repeat (apply elem_of_cons in Hin as [Hin|Hin]; [discriminate Hin|]).
  by apply elem_of_nil in Hin.
Defined.

(** ** Unwrapping the envelope *)

(** C3, as stated, fails on the message: for the envelope
    [{isOK: false, message: "m"}] the error raised does not carry the
    message ["m"] but that message behind a fixed prefix. *)
Lemma rejected_message_is_prefixed :
  TSC.unwrapOrThrowError rejected false = Throw (Error "Error processing request: m")
  ∧ TSC.unwrapOrThrowError rejected false ≠ Throw (Error "m").
Proof. split; [reflexivity | discriminate]. Qed.

(** C3, amended. When [isOK] is false an [Error] is raised whose message is
    ["Error processing request: "] followed by the message of the envelope
    (by ["undefined"] when it has none), with or without [ignoreResponse].
    When [isOK] is true and the response is not ignored, a payload that is
    present and truthy is returned, and a missing or falsy one fails the
    assertion. *)
Theorem unwrap_envelope (T : Type) `{Truthy T} (msg : option string) :
  (∀ (payload : option T) (ignoreResponse : bool),
     TSC.unwrapOrThrowError
       {| TSC.data := {| TSC.isOK := false; TSC.message := msg; TSC.response := payload |} |}
       ignoreResponse
     = Throw (Error ("Error processing request: " +:+ template msg)))
  ∧ (∀ x : T,
       TSC.unwrapOrThrowError
         {| TSC.data := {| TSC.isOK := true; TSC.message := msg; TSC.response := Some x |} |}
         false
       = if truthy x then Normal (TSC.Payload x) else Throw AssertionError)
  ∧ TSC.unwrapOrThrowError (T := T) (bareSuccess msg) false = Throw AssertionError.
Proof.
  split; [reflexivity|]. split; [|reflexivity].
  intros x. unfold TSC.unwrapOrThrowError, assert. cbn.
  destruct (truthy x); reflexivity.
Qed.

(** The error of an envelope with and without a message, and a payload
    returned. *)
Example unwrap_samples :
  TSC.unwrapOrThrowError (T := Val)
    {| TSC.data := {| TSC.isOK := false; TSC.message := None; TSC.response := None |} |} true
  = Throw (Error "Error processing request: undefined")
  ∧ TSC.unwrapOrThrowError
      {| TSC.data := {| TSC.isOK := true; TSC.message := None;
                        TSC.response := Some (VObj [("state", VNull)]) |} |} false
    = Normal (TSC.Payload (VObj [("state", VNull)]))
  ∧ TSC.unwrapOrThrowError
      {| TSC.data := {| TSC.isOK := true; TSC.message := None;
                        TSC.response := Some (VNum 0) |} |} false
    = Throw AssertionError
  ∧ TSC.unwrapOrThrowError (T := Val) (bareSuccess None) true = Normal TSC.EmptyObject.
Proof. repeat split. Qed.

(** C9. Each of the acknowledgment-only game operations unwraps the
    response of its post with [ignoreResponse] false: when the server
    answers the post with the bare success envelope, the operation fails the
    assertion, although the same envelope unwrapped with [ignoreResponse]
    set gives the empty object. *)
Theorem acknowledgments_assert_payload (axios : TSC.Axios Val) (msg : option string)
    (create : TSC.CreateGameRequest.t) (start : TSC.StartGameRequest.t)
    (join : TSC.GameJoinTeamRequest.t) (leave : TSC.GameLeaveTeamRequest.t)
    (update : TSC.UpdateGameRequest.t) :
  (∀ url body, axios url body = Normal (bareSuccess msg)) →
  TSC.createGame axios create = Throw AssertionError
  ∧ TSC.startGame axios start = Throw AssertionError
  ∧ TSC.addPlayerToGameTeam axios join = Throw AssertionError
  ∧ TSC.removePlayerFromGameTeam axios leave = Throw AssertionError
  ∧ TSC.inputGameAction axios update = Throw AssertionError
  ∧ TSC.unwrapOrThrowError (T := Val) (bareSuccess msg) true = Normal TSC.EmptyObject.
Proof.
  intros Hpost.
  unfold TSC.createGame, TSC.startGame, TSC.addPlayerToGameTeam,
    TSC.removePlayerFromGameTeam, TSC.inputGameAction.
  rewrite !Hpost. repeat split.
Qed.

Lemma acknowledgments_assert_payload_witness :
  TSC.createGame (fun _ _ => Normal (bareSuccess None))
    {| TSC.CreateGameRequest.coveyTownID := "town";
       TSC.CreateGameRequest.sessionToken := "token";
       TSC.CreateGameRequest.conversationAreaLabel := "lounge";
       TSC.CreateGameRequest.gameID := "wordle" |} = Throw AssertionError
  ∧ TSC.startGame (fun _ _ => Normal (bareSuccess None))
      {| TSC.StartGameRequest.coveyTownID := "town";
         TSC.StartGameRequest.sessionToken := "token";
         TSC.StartGameRequest.conversationAreaLabel := "lounge" |} = Throw AssertionError
  ∧ TSC.addPlayerToGameTeam (fun _ _ => Normal (bareSuccess None))
      {| TSC.GameJoinTeamRequest.coveyTownID := "town";
         TSC.GameJoinTeamRequest.sessionToken := "token";
         TSC.GameJoinTeamRequest.playerID := "bob";
         TSC.GameJoinTeamRequest.teamNumber := 2;
         TSC.GameJoinTeamRequest.conversationAreaLabel := "lounge" |} = Throw AssertionError
  ∧ TSC.removePlayerFromGameTeam (fun _ _ => Normal (bareSuccess None))
      {| TSC.GameLeaveTeamRequest.coveyTownID := "town";
         TSC.GameLeaveTeamRequest.sessionToken := "token";
         TSC.GameLeaveTeamRequest.playerID := "bob";
         TSC.GameLeaveTeamRequest.conversationAreaLabel := "lounge" |} = Throw AssertionError
  ∧ TSC.inputGameAction (fun _ _ => Normal (bareSuccess None))
      {| TSC.UpdateGameRequest.coveyTownID := "town";
         TSC.UpdateGameRequest.sessionToken := "token";
         TSC.UpdateGameRequest.conversationAreaLabel := "lounge";
         TSC.UpdateGameRequest.gameAction := VStr "CRANE" |} = Throw AssertionError
  ∧ TSC.unwrapOrThrowError (T := Val) (bareSuccess None) true = Normal TSC.EmptyObject.
Proof.
  apply (acknowledgments_assert_payload (fun _ _ => Normal (bareSuccess None)) None).
  intros url body. reflexivity.
Defined.

(** ** Determinism of the boards *)

(** C8. The boards derived from a game state depend on the observer and on
    the [gameover] flag only: two runs of the derivation in closures that
    agree on these two, whatever the input typed, the element on display,
    the area or the tokens are, give the same red board and the same blue
    board. *)
Theorem boards_deterministic (env1 env2 : Closure) (gameState : GameState) (X : Team) :
  playerID env1 = playerID env2 → gameover env1 = gameover env2 →
  board X env1 gameState = board X env2 gameState.
Proof.
  intros HP Hover.
  destruct X; unfold board, redBoard, blueBoard, redRows, blueRows, redGuesses,
    blueGuesses, redTeam, blueTeam; rewrite HP, Hover; reflexivity.
Qed.

Lemma boards_deterministic_witness :
  board Red (viewer "bob" false) scenario = board Red (typing "bob" false) scenario.
Proof.
  apply (boards_deterministic (viewer "bob" false) (typing "bob" false) scenario Red);
    reflexivity.
Defined.

(** ** The guess input *)

(** C10. The view has one guess input, and it is disabled if and only if
    the observer is a member of neither team; the flag is the same in every
    closure of that observer, whatever its [gameover] flag. *)
Theorem input_disabled_iff_spectator (env : Closure) (gameState : GameState) :
  ∃ disabled,
    inputFlags (constructBoards env gameState) = [disabled]
    ∧ (disabled = true
       ↔ ¬ isMember (playerID env) Red gameState ∧ ¬ isMember (playerID env) Blue gameState)
    ∧ ∀ env', playerID env' = playerID env →
        inputFlags (constructBoards env' gameState) = [disabled].
Proof.
  eexists. split; [reflexivity|]. split.
  - rewrite andb_true_iff.
    rewrite <- (not_team_flag (playerID env) Red gameState).
    rewrite <- (not_team_flag (playerID env) Blue gameState). done.
  - intros env' HP. unfold constructBoards, inputFlags, redTeam, blueTeam.
    cbn [childrenOf omap list_omap]. rewrite HP. reflexivity.
Qed.

(** A player of either team may type when the game is over; a spectator
    may not. *)
Example input_samples :
  inputFlags (constructBoards (viewer "alice" true) scenario) = [false]
  ∧ inputFlags (constructBoards (viewer "bob" false) scenario) = [false]
  ∧ inputFlags (constructBoards (viewer "carol" false) scenario) = [true]
  ∧ inputFlags (constructBoards (viewer "bob" false) notStarted) = [true].
Proof. vm_compute. done. Qed.

(** ** Fetches in flight *)

Lemma activate_fetches (s : Session) :
  gameActive (hooks s) = true →
  hooks (step s Activate) = hooks s
  ∧ length (inFlight (step s Activate)) = S (length (inFlight s)).
Proof.
  unfold gameActive, step, GameBoard. cbn [fst].
  destruct (currentConversationArea (hooks s)) as [convoArea|]; [|done].
  intros ->. cbn [hooks inFlight]. rewrite length_app. cbn [length]. split; [done | lia].
Qed.

(** C7, as stated, fails: two activations of a mounted component with
    nothing in flight leave two fetches in flight. *)
Lemma two_activations_two_fetches :
  inFlight mounted = []
  ∧ length (inFlight (run mounted [Activate; Activate])) = 2%nat.
Proof. split; reflexivity. Qed.

(** C7, amended. While the area of the component has a game, every
    activation issues a fetch whatever is in flight: after [n] activations
    [n] more fetches are in flight. When a fetch in flight settles with a
    game state, the body runs again on the new element and issues a fetch
    in its turn, so that as many fetches are in flight as before. *)
Theorem every_activation_fetches (s : Session) :
  gameActive (hooks s) = true →
  (∀ n, length (inFlight (run s (replicate n Activate))) = (length (inFlight s) + n)%nat)
  ∧ (∀ k gameState, is_Some (inFlight s !! k) →
       length (inFlight (step s (Settle k (Normal (stateEnvelope gameState)))))
       = length (inFlight s)).
Proof.
  intros Hactive. split.
  - intros n. revert s Hactive. induction n as [|n IH]; intros s Hactive.
    + cbn. lia.
    + cbn [replicate]. unfold run in *. cbn [foldl].
      destruct (activate_fetches s Hactive) as [Hhooks Hlen].
      rewrite IH by (by rewrite Hhooks). rewrite Hlen. lia.
  - intros k gameState Hk. pose proof Hk as [f Hf].
    unfold step. rewrite Hf. cbn.
    unfold setElement, GameBoard. cbn [fst hooks inFlight currentConversationArea].
    unfold gameActive in Hactive.
    destruct (currentConversationArea (hooks s)) as [convoArea|]; [|done].
    rewrite Hactive. cbn [inFlight]. rewrite length_app, length_delete by done.
    apply lookup_lt_Some in Hf. cbn [length]. lia.
Qed.

Lemma every_activation_fetches_witness :
  (∀ n, length (inFlight (run fetching (replicate n Activate)))
        = (length (inFlight fetching) + n)%nat)
  ∧ (∀ k gameState, is_Some (inFlight fetching !! k) →
       length (inFlight (step fetching (Settle k (Normal (stateEnvelope gameState)))))
       = length (inFlight fetching)).
Proof.
  apply (every_activation_fetches fetching). reflexivity.
Defined.

(** The completion of the one fetch of a mounted component shows the state
    and leaves a new fetch in flight. *)
Example completion_fetches_again :
  let s := run mounted [Activate; Settle 0 (Normal (stateEnvelope scenario))] in
  element (hooks s) = constructBoards (viewer "bob" false) scenario
  ∧ length (inFlight s) = 1%nat.
Proof. split; reflexivity. Qed.

(** ** Further properties of the board *)

Lemma team_flag (P : string) (X : Team) (gameState : GameState) :
  Js.not ((fun t => includes (teamMembers t) P) <$> teamState X gameState) = false
  ↔ isMember P X gameState.
Proof.
  unfold isMember. destruct (teamState X gameState) as [t|]; simpl.
  - unfold includes. rewrite negb_false_iff, bool_decide_eq_true. split.
    + intros Hin. eauto.
    + intros (t' & [= <-] & Hin). done.
  - split; [done|]. intros (t & ? & _). done.
Qed.

Lemma board_rows (X : Team) (env : Closure) (gameState : GameState) :
  board X env gameState = VStack None None (rowsOf X env gameState).
Proof.
  unfold rowsOf. destruct X; unfold board, redBoard, blueBoard.
  - destruct (redRows env gameState); [by rewrite AllRows_defined | done].
  - destruct (blueRows env gameState); [by rewrite AllRows_defined | done].
Qed.

Lemma Array_from_length (s : string) : length (Array_from s) = String.length s.
Proof. induction s as [|c rest IH]; simpl; [done | by rewrite IH]. Qed.

(** A row with its letters withheld is made of the length of the word and
    of the results alone. *)
Lemma guessRow_hidden (i : nat) (g : Guess) :
  guessRow false i g =
  HStack (Some (toString i)) "12px"
    ((fun j => Button (Some (toString j)) "sm"
                 (Map_get letterColorMatch (guessResult g !! j)) None (Some ""))
       <$> seq 0 (String.length (word g))).
Proof.
  unfold guessRow, WordleRow, WordleLetter.
  cbn [guessArray letterColors showLetters letter color].
  by rewrite imap_seq_0, Array_from_length.
Qed.

(** X1. The status line of the view is ["Game Over"] once the game is over,
    for players and spectators alike; before that it tells a member of
    neither team that they are spectating and a member of either team that
    they are on a team. *)
Theorem status_line (env : Closure) (gameState : GameState) :
  ∃ text,
    statusTexts (constructBoards env gameState) = [text]
    ∧ (gameover env = true → text = "Game Over")
    ∧ (gameover env = false →
       (text = "You are Spectating!"
        ↔ ¬ isMember (playerID env) Red gameState ∧ ¬ isMember (playerID env) Blue gameState)
       ∧ (text = "You are on a team!"
          ↔ isMember (playerID env) Red gameState ∨ isMember (playerID env) Blue gameState)).
Proof.
  eexists. split; [reflexivity|]. unfold displayText, yourTeamHeader.
  pose proof (not_team_flag (playerID env) Red gameState) as HnR.
  pose proof (not_team_flag (playerID env) Blue gameState) as HnB.
  pose proof (team_flag (playerID env) Red gameState) as HR.
  pose proof (team_flag (playerID env) Blue gameState) as HB.
  unfold redTeam, blueTeam. cbn [teamState] in *.
  split; intros ->; [done|].
  destruct (Js.not _) eqn:ER in HnR, HR |- *;
    destruct (Js.not _) eqn:EB in HnB, HB |- *; cbn [andb].
  - split; split; try done.
    + intros _. split; [by apply HnR | by apply HnB].
    + intros [Hm|Hm]; [by apply HnR in Hm | by apply HnB in Hm].
  - split; split; try done.
    + intros [_ Hn]. destruct Hn. by apply HB.
    + intros _. right. by apply HB.
  - split; split; try done.
    + intros [Hn _]. destruct Hn. by apply HR.
    + intros _. left. by apply HR.
  - split; split; try done.
    + intros [Hn _]. destruct Hn. by apply HR.
    + intros _. left. by apply HR.
Qed.

(** X2. A row has one cell per letter of the guess, however many colour
    codes come with it: a cell at an index past the end of the colour codes
    is drawn without a colour scheme, and colour codes past the end of the
    word are not used. *)
Theorem row_follows_word (key : option string) (letters : list string) (codes : list Z)
    (shown : bool) :
  length (childrenOf (WordleRow key {| guessArray := letters; letterColors := codes;
                                       showLetters := shown |}))
  = length letters
  ∧ (∀ j l, letters !! j = Some l → (length codes ≤ j)%nat →
       childrenOf (WordleRow key {| guessArray := letters; letterColors := codes;
                                    showLetters := shown |}) !! j
       = Some (Button (Some (toString j)) "sm" None None (Some (if shown then l else ""))))
  ∧ WordleRow key {| guessArray := letters; letterColors := codes; showLetters := shown |}
    = WordleRow key {| guessArray := letters; letterColors := take (length letters) codes;
                       showLetters := shown |}.
Proof.
  unfold WordleRow. cbn [childrenOf guessArray letterColors showLetters].
  split; [apply length_imap|]. split.
  - intros j l Hl Hj. rewrite list_lookup_imap, Hl. cbn [fmap option_fmap option_map].
    unfold WordleLetter. cbn [color letter].
    by rewrite (proj2 (lookup_ge_None codes j) Hj).
  - f_equal. apply imap_ext. intros j l Hl. cbn beta.
    apply lookup_lt_Some in Hl. by rewrite lookup_take_lt.
Qed.

(** X3. While the letters of team [X] are withheld from the observer, the
    board of [X] shows nothing of the words but their lengths: two game
    states in which the guesses of [X] have the same shapes give the same
    board. *)
Theorem withheld_letters_do_not_show (X : Team) (env : Closure)
    (gameState1 gameState2 : GameState) (t1 t2 : TeamState) :
  teamState X gameState1 = Some t1 → teamState X gameState2 = Some t2 →
  Forall2 sameShape (guesses t1) (guesses t2) →
  ¬ lettersShown (playerID env) X gameState1 (gameover env) →
  ¬ lettersShown (playerID env) X gameState2 (gameover env) →
  board X env gameState1 = board X env gameState2.
Proof.
  intros Ht1 Ht2 Hshape Hn1 Hn2. rewrite !board_rows. f_equal.
  rewrite (rowsOf_present X env gameState1 t1 Ht1), (rowsOf_present X env gameState2 t2 Ht2).
  rewrite <- showLettersOf_spec in Hn1, Hn2.
  apply not_true_is_false in Hn1, Hn2. rewrite Hn1, Hn2.
  rewrite (Forall2_length _ _ _ Hshape). f_equal. f_equal.
  apply list_eq. intros i. rewrite !list_lookup_imap.
  destruct (Forall2_lookup sameShape (guesses t1) (guesses t2)) as [Hlook _].
  specialize (Hlook Hshape i).
  destruct Hlook as [g1 g2 [Hlen Hres]|]; [|done].
  cbn [fmap option_fmap option_map]. f_equal.
  by rewrite !guessRow_hidden, Hlen, Hres.
Qed.

Lemma withheld_letters_do_not_show_witness :
  board Red (viewer "bob" false) scenario = board Red (viewer "bob" false) otherWords.
Proof.
  apply (withheld_letters_do_not_show Red (viewer "bob" false) scenario otherWords
           teamOne
           {| teamMembers := ["alice"];
              guesses := [ {| word := "BLIMP"; guessResult := [0; 1; -1; 0; 0] |};
                           {| word := "FUDGY"; guessResult := [1; 1; 1; 1; 1] |} ] |}).
  - reflexivity.
  - reflexivity.
  - repeat constructor.
  - rewrite <- (showLettersOf_spec Red (viewer "bob" false) scenario). vm_compute. discriminate.
  - rewrite <- (showLettersOf_spec Red (viewer "bob" false) otherWords). vm_compute. discriminate.
Defined.

(** X4. In the board of a present team the row at index [i] is as wide as
    the word guessed at [i], and five cells wide where there is no guess:
    nothing pads or cuts a word. The grid is six rows of five cells when the
    guessed words have five letters. *)
Theorem row_widths (X : Team) (env : Closure) (gameState : GameState) (t : TeamState) :
  teamState X gameState = Some t →
  (∀ i row, rowsOf X env gameState !! i = Some row →
     length (childrenOf row)
     = match guesses t !! i with
       | Some g => String.length (word g)
       | None => 5%nat
       end)
  ∧ (Forall (fun g => String.length (word g) = 5%nat) (guesses t) →
     length (rowsOf X env gameState) = 6%nat
     ∧ Forall (fun row => length (childrenOf row) = 5%nat) (rowsOf X env gameState)).
Proof.
  intros Ht.
  assert (∀ i row, rowsOf X env gameState !! i = Some row →
            length (childrenOf row)
            = match guesses t !! i with
              | Some g => String.length (word g)
              | None => 5%nat
              end) as Hwidth.
  { intros i row Hrow.
    assert (i < 6)%nat as Hi.
    { apply lookup_lt_Some in Hrow. by rewrite (rowsOf_length X env gameState t Ht) in Hrow. }
    destruct (guesses t !! i) as [g|] eqn:Hg.
    - rewrite (rowsOf_guess X env gameState t i g Ht Hi Hg) in Hrow.
      injection Hrow as <-. unfold guessRow, WordleRow.
      cbn [childrenOf guessArray]. by rewrite length_imap, Array_from_length.
    - rewrite (rowsOf_blank X env gameState t i Ht Hi Hg) in Hrow.
      by injection Hrow as <-. }
  split; [exact Hwidth|].
  intros Hfive. split; [by apply (rowsOf_length X env gameState t)|].
  apply Forall_lookup. intros i row Hrow. rewrite (Hwidth i row Hrow).
  destruct (guesses t !! i) as [g|] eqn:Hg; [|done].
  by apply (Forall_lookup_1 _ _ _ _ Hfive Hg).
Qed.

Lemma row_widths_witness :
  (∀ i row, rowsOf Red (viewer "carol" false) scenario !! i = Some row →
     length (childrenOf row)
     = match guesses teamOne !! i with
       | Some g => String.length (word g)
       | None => 5%nat
       end)
  ∧ (Forall (fun g => String.length (word g) = 5%nat) (guesses teamOne) →
     length (rowsOf Red (viewer "carol" false) scenario) = 6%nat
     ∧ Forall (fun row => length (childrenOf row) = 5%nat)
         (rowsOf Red (viewer "carol" false) scenario)).
Proof.
  apply (row_widths Red (viewer "carol" false) scenario teamOne). reflexivity.
Defined.

(** ** Further properties of the service client *)

Lemma bind_Normal {A B} (c : Completion A) (k : A → Completion B) (b : B) :
  c ≫= k = Normal b ↔ ∃ a, c = Normal a ∧ k a = Normal b.
Proof.
  destruct c as [a|e]; cbn.
  - split; [eauto|]. by intros (a' & [= <-] & Hk).
  - split; [done|]. by intros (a' & ? & _).
Qed.

Lemma bind_Throw {A B} (c : Completion A) (k : A → Completion B) (e : Exn) :
  c ≫= k = Throw e ↔ c = Throw e ∨ ∃ a, c = Normal a ∧ k a = Throw e.
Proof.
  destruct c as [a|e']; cbn.
  - split; [eauto|]. intros [?|(a' & [= <-] & Hk)]; done.
  - split; [intros [= <-]; by left|]. intros [[= <-]|(a' & ? & _)]; done.
Qed.

Lemma unwrap_kept {T} `{Truthy T} (resp : TSC.AxiosResponse T) (u : TSC.Unwrapped T) :
  TSC.unwrapOrThrowError resp false = Normal u
  ↔ TSC.isOK (TSC.data resp) = true
    ∧ ∃ x, TSC.response (TSC.data resp) = Some x ∧ truthy x = true ∧ u = TSC.Payload x.
Proof.
  unfold TSC.unwrapOrThrowError, assert.
  destruct (TSC.isOK (TSC.data resp)); [|split; [done | by intros [? _]]].
  destruct (TSC.response (TSC.data resp)) as [x|]; cbn.
  - destruct (truthy x) eqn:Hx; cbn.
    + split; [intros [= <-]; eauto|]. by intros (_ & x' & [= <-] & _ & ->).
    + split; [done|]. intros (_ & x' & [= <-] & Hx' & _). congruence.
  - split; [done|]. by intros (_ & x & ? & _).
Qed.

Lemma unwrap_ignored {T} `{Truthy T} (resp : TSC.AxiosResponse T) (u : TSC.Unwrapped T) :
  TSC.unwrapOrThrowError resp true = Normal u
  ↔ TSC.isOK (TSC.data resp) = true ∧ u = TSC.EmptyObject.
Proof.
  unfold TSC.unwrapOrThrowError.
  destruct (TSC.isOK (TSC.data resp)).
  - split; [by intros [= <-] | by intros [_ ->]].
  - split; [done | by intros [? _]].
Qed.

Lemma unwrap_ignored_Throw {T} `{Truthy T} (resp : TSC.AxiosResponse T) (e : Exn) :
  TSC.unwrapOrThrowError resp true = Throw e
  ↔ TSC.isOK (TSC.data resp) = false
    ∧ e = Error ("Error processing request: " +:+ template (TSC.message (TSC.data resp))).
Proof.
  unfold TSC.unwrapOrThrowError.
  destruct (TSC.isOK (TSC.data resp)).
  - split; [done | by intros [? _]].
  - split; [by intros [= <-] | by intros [_ ->]].
Qed.

(** An operation that keeps the payload returns exactly when its request is
    answered with a success envelope whose payload is truthy. *)
Lemma kept_returns {T} `{Truthy T} (c : Completion (TSC.AxiosResponse T)) (u : TSC.Unwrapped T) :
  (c ≫= (fun responseWrapper => TSC.unwrapOrThrowError responseWrapper false)) = Normal u
  ↔ ∃ x, answers c x ∧ truthy x = true ∧ u = TSC.Payload x.
Proof.
  rewrite bind_Normal. unfold answers. split.
  - intros (resp & -> & Hu). apply unwrap_kept in Hu as (Hok & x & Hx & Htr & ->).
    exists x. split; [by exists resp | done].
  - intros (x & (resp & -> & Hok & Hx) & Htr & ->). exists resp. split; [done|].
    apply unwrap_kept. split; [done|]. by exists x.
Qed.

(** X5. The constructor takes the service URL it is given unless that is
    missing or empty, and then the one of the environment; it fails the
    assertion when that is missing or empty too, so that no client has an
    empty base URL. *)
Theorem constructor_base_url (serviceURL envURL : option string) :
  (∀ s, serviceURL = Some s → s ≠ "" →
     TSC.constructor serviceURL envURL = Normal {| TSC.baseURL := s |})
  ∧ (serviceURL = None ∨ serviceURL = Some "" →
     (∀ s, envURL = Some s → s ≠ "" →
        TSC.constructor serviceURL envURL = Normal {| TSC.baseURL := s |})
     ∧ (envURL = None ∨ envURL = Some "" →
        TSC.constructor serviceURL envURL = Throw AssertionError))
  ∧ (∀ client, TSC.constructor serviceURL envURL = Normal client → TSC.baseURL client ≠ "").
Proof.
  assert (∀ s : string, s ≠ "" → truthy s = true) as Htruthy.
  { intros s Hs. unfold truthy, string_truthy. by apply negb_true_iff, String.eqb_neq. }
  assert (∀ o : option string, o = None ∨ o = Some "" →
          ∀ b, Js.or o b = b) as Hor.
  { intros o [->| ->] b; reflexivity. }
  assert (∀ o client, (baseURL ← assert o; Normal {| TSC.baseURL := baseURL |}) = Normal client →
          TSC.baseURL client ≠ "") as Hassert.
  { intros [s|] client; cbn; [|done].
    destruct (truthy s) eqn:Hs; cbn; [|done]. intros [= <-]. cbn.
    intros ->. discriminate Hs. }
  unfold TSC.constructor. cbn zeta. split; [|split].
  - intros s -> Hs. cbn. rewrite (Htruthy s Hs). cbn. by rewrite (Htruthy s Hs).
  - intros Hservice. rewrite (Hor serviceURL Hservice). split.
    + intros s -> Hs. cbn. by rewrite (Htruthy s Hs).
    + by intros [->| ->].
  - intros client. apply Hassert.
Qed.

(** The constructor on an empty service URL, with and without a URL in the
    environment. *)
Example constructor_samples :
  TSC.constructor (Some "") (Some "http://localhost:8081")
  = Normal {| TSC.baseURL := "http://localhost:8081" |}
  ∧ TSC.constructor (Some "http://towns") (Some "http://localhost:8081")
    = Normal {| TSC.baseURL := "http://towns" |}
  ∧ TSC.constructor (Some "") None = Throw AssertionError.
Proof. repeat split. Qed.

(** An operation that ignores the payload returns exactly when its request
    is answered with a success envelope, and raises what the request raised
    or the error of a failure envelope. *)
Lemma ignored_returns {T} `{Truthy T} (c : Completion (TSC.AxiosResponse T))
    (u : TSC.Unwrapped T) :
  (c ≫= (fun responseWrapper => TSC.unwrapOrThrowError responseWrapper true)) = Normal u
  ↔ acknowledged c ∧ u = TSC.EmptyObject.
Proof.
  rewrite bind_Normal. unfold acknowledged. split.
  - intros (resp & -> & Hu). apply unwrap_ignored in Hu as [Hok ->].
    split; [by exists resp | done].
  - intros [(resp & -> & Hok) ->]. exists resp. split; [done|]. by apply unwrap_ignored.
Qed.

Lemma ignored_raises {T} `{Truthy T} (c : Completion (TSC.AxiosResponse T)) (e : Exn) :
  (c ≫= (fun responseWrapper => TSC.unwrapOrThrowError responseWrapper true)) = Throw e
  ↔ c = Throw e ∨ refusal c e.
Proof.
  rewrite bind_Throw. unfold refusal. split.
  - intros [Hc|(resp & -> & Hu)]; [by left|]. right.
    apply unwrap_ignored_Throw in Hu as [Hok ->]. by exists resp.
  - intros [Hc|(resp & -> & Hok & ->)]; [by left|]. right.
    exists resp. split; [done|]. by apply unwrap_ignored_Throw.
Qed.

Ltac payload_operation :=
  let u := fresh "u" in
  intros u; etransitivity; [apply kept_returns|];
  split; [intros (? & ? & _ & ->) | intros (? & ? & ->)];
  eexists; repeat split; eauto.

(** X6. The operations that return a town payload, [createTown] (a post to
    [/towns]), [listTowns] (a get of [/towns]) and [joinTown] (a post to
    [/sessions]), return exactly when the request is answered with a success
    envelope that has a payload, and then they return that payload. *)
Theorem town_operations_return_payload
    (post : TSC.AxiosSend TSC.TownCreateResponse.t)
    (get : TSC.AxiosFetch TSC.TownListResponse.t)
    (postSession : TSC.AxiosSend TSC.TownJoinResponse.t)
    (create : TSC.TownCreateRequest.t) (join : TSC.TownJoinRequest.t) :
  (∀ u, TSC.createTown post create = Normal u
        ↔ ∃ x, answers (post "/towns" (TSC.TownCreateData create)) x ∧ u = TSC.Payload x)
  ∧ (∀ u, TSC.listTowns get = Normal u
          ↔ ∃ x, answers (get "/towns") x ∧ u = TSC.Payload x)
  ∧ (∀ u, TSC.joinTown postSession join = Normal u
          ↔ ∃ x, answers (postSession "/sessions" (TSC.TownJoinData join)) x
                 ∧ u = TSC.Payload x).
Proof.
  unfold TSC.createTown, TSC.listTowns, TSC.joinTown.
  split; [|split]; payload_operation.
Qed.

(** X7. [updateTown] (a patch of [/towns/<id>]) and [deleteTown] (a delete
    of [/towns/<id>/<password>]) ignore the payload: they return, the empty
    object, exactly when the request is answered with a success envelope,
    with or without a payload; they raise only what the request raised
    or the error of a failure envelope, and so never fail an assertion of
    their own. *)
Theorem town_update_delete_ignore_payload (patch : TSC.AxiosSend Val)
    (delete : TSC.AxiosFetch Val)
    (update : TSC.TownUpdateRequest.t) (remove : TSC.TownDeleteRequest.t) :
  (∀ u, TSC.updateTown patch update = Normal u
        ↔ acknowledged (patch ("/towns/" +:+ TSC.TownUpdateRequest.coveyTownID update)
                              (TSC.TownUpdateData update))
          ∧ u = TSC.EmptyObject)
  ∧ (∀ u, TSC.deleteTown delete remove = Normal u
          ↔ acknowledged (delete ("/towns/" +:+ TSC.TownDeleteRequest.coveyTownID remove
                                  +:+ "/" +:+ TSC.TownDeleteRequest.coveyTownPassword remove))
            ∧ u = TSC.EmptyObject)
  ∧ (∀ e, TSC.updateTown patch update = Throw e
          ↔ patch ("/towns/" +:+ TSC.TownUpdateRequest.coveyTownID update)
                  (TSC.TownUpdateData update) = Throw e
            ∨ refusal (patch ("/towns/" +:+ TSC.TownUpdateRequest.coveyTownID update)
                             (TSC.TownUpdateData update)) e)
  ∧ (∀ e, TSC.deleteTown delete remove = Throw e
          ↔ delete ("/towns/" +:+ TSC.TownDeleteRequest.coveyTownID remove
                    +:+ "/" +:+ TSC.TownDeleteRequest.coveyTownPassword remove) = Throw e
            ∨ refusal (delete ("/towns/" +:+ TSC.TownDeleteRequest.coveyTownID remove
                               +:+ "/" +:+ TSC.TownDeleteRequest.coveyTownPassword remove)) e).
Proof.
  unfold TSC.updateTown, TSC.deleteTown.
  split; [|split; [|split]]; intros;
    first [apply ignored_returns | apply ignored_raises].
Qed.

(** X8. The operations that only acknowledge, [createConversation] and the
    five game operations, return exactly when the post is answered with a
    success envelope whose payload is present and truthy; an acknowledgment
    that carries [false], [0], the empty string or [null] fails like one
    without payload. Each posts its request to its own path under
    [/towns/<id>]. *)
Theorem acknowledgments_return (post : TSC.AxiosSend Val) (axios : TSC.Axios Val)
    (conversation : TSC.ConversationAreaCreateRequest.t)
    (create : TSC.CreateGameRequest.t) (start : TSC.StartGameRequest.t)
    (join : TSC.GameJoinTeamRequest.t) (leave : TSC.GameLeaveTeamRequest.t)
    (update : TSC.UpdateGameRequest.t) :
  (∀ u, TSC.createConversation post conversation = Normal u
        ↔ ∃ x, answers (post ("/towns/"
                              +:+ TSC.ConversationAreaCreateRequest.coveyTownID conversation
                              +:+ "/conversationAreas")
                             (TSC.ConversationAreaCreateData conversation)) x
               ∧ truthy x = true ∧ u = TSC.Payload x)
  ∧ (∀ u, TSC.createGame axios create = Normal u
          ↔ ∃ x, answers (axios ("/towns/" +:+ TSC.CreateGameRequest.coveyTownID create
                                 +:+ "/games")
                                (TSC.CreateGameData create)) x
                 ∧ truthy x = true ∧ u = TSC.Payload x)
  ∧ (∀ u, TSC.addPlayerToGameTeam axios join = Normal u
          ↔ ∃ x, answers (axios ("/towns/" +:+ TSC.GameJoinTeamRequest.coveyTownID join
                                 +:+ "/joingameteam")
                                (TSC.GameJoinTeamData join)) x
                 ∧ truthy x = true ∧ u = TSC.Payload x)
  ∧ (∀ u, TSC.removePlayerFromGameTeam axios leave = Normal u
          ↔ ∃ x, answers (axios ("/towns/" +:+ TSC.GameLeaveTeamRequest.coveyTownID leave
                                 +:+ "/removeplayerfromteam")
                                (TSC.GameLeaveTeamData leave)) x
                 ∧ truthy x = true ∧ u = TSC.Payload x)
  ∧ (∀ u, TSC.startGame axios start = Normal u
          ↔ ∃ x, answers (axios ("/towns/" +:+ TSC.StartGameRequest.coveyTownID start
                                 +:+ "/startGame")
                                (TSC.StartGameData start)) x
                 ∧ truthy x = true ∧ u = TSC.Payload x)
  ∧ (∀ u, TSC.inputGameAction axios update = Normal u
          ↔ ∃ x, answers (axios ("/towns/" +:+ TSC.UpdateGameRequest.coveyTownID update
                                 +:+ "/updategame")
                                (TSC.UpdateGameData update)) x
                 ∧ truthy x = true ∧ u = TSC.Payload x).
Proof.
  unfold TSC.createConversation, TSC.createGame, TSC.addPlayerToGameTeam,
    TSC.removePlayerFromGameTeam, TSC.startGame, TSC.inputGameAction.
  split; [|split; [|split; [|split; [|split]]]]; intros; apply kept_returns.
Qed.

(** An acknowledgment with an empty object is accepted, one with [false]
    is not. *)
Example acknowledgment_samples :
  TSC.startGame (fun _ _ => Normal acked)
    {| TSC.StartGameRequest.coveyTownID := "town";
       TSC.StartGameRequest.sessionToken := "token";
       TSC.StartGameRequest.conversationAreaLabel := "lounge" |}
  = Normal (TSC.Payload (VObj []))
  ∧ TSC.startGame
      (fun _ _ => Normal {| TSC.data := {| TSC.isOK := true; TSC.message := None;
                                           TSC.response := Some (VBool false) |} |})
      {| TSC.StartGameRequest.coveyTownID := "town";
         TSC.StartGameRequest.sessionToken := "token";
         TSC.StartGameRequest.conversationAreaLabel := "lounge" |}
    = Throw AssertionError.
Proof. split; reflexivity. Qed.

(** ** Further properties of the render loop *)


Lemma getGameState_delivered (outcome : Completion (TSC.AxiosResponse TSC.GameStateResponse))
    (env : Closure) (convoArea : ConversationArea) (gameState : GameState) :
  delivers outcome = Some gameState →
  getGameState (fun _ _ => outcome) env convoArea = Normal (Some gameState).
Proof.
  unfold delivers, getGameState, TSC.getGameState, TSC.unwrapOrThrowError.
  destruct outcome as [[[[|] msg [[gs]|]]]|e]; cbn; try done.
  by intros [= <-].
Qed.

Lemma getGameState_undelivered (outcome : Completion (TSC.AxiosResponse TSC.GameStateResponse))
    (env : Closure) (convoArea : ConversationArea) :
  delivers outcome = None →
  ∃ e, getGameState (fun _ _ => outcome) env convoArea = Throw e.
Proof.
  unfold delivers, getGameState, TSC.getGameState, TSC.unwrapOrThrowError.
  destruct outcome as [[[[|] msg [[gs]|]]]|e]; cbn; try done; eauto.
Qed.

Lemma step_area (s : Session) (ev : Event) :
  currentConversationArea (hooks (step s ev)) = currentConversationArea (hooks s).
Proof.
  assert (∀ s', currentConversationArea (hooks (GameBoard s').1)
                = currentConversationArea (hooks s')) as Hbody.
  { intros s'. unfold GameBoard. cbn [fst].
    destruct (currentConversationArea (hooks s')) as [convoArea|] eqn:Harea; [|done].
    destruct (game convoArea); done. }
  destruct ev as [|k outcome]; cbn [step]; [apply Hbody|].
  destruct (inFlight s !! k) as [f|]; [|done].
  destruct (getGameState _ _ _) as [[gameState|]|e]; try done.
  unfold setElement. by rewrite Hbody.
Qed.

(** X10. A fetch that fails, because the post is rejected or is answered
    with a failure envelope or with a success envelope without payload,
    leaves the flight and changes nothing else: the element on display stays
    and the body is not run again, so no fetch follows it. *)
Theorem failed_fetch_changes_nothing (s : Session) (k : nat)
    (outcome : Completion (TSC.AxiosResponse TSC.GameStateResponse)) :
  delivers outcome = None →
  step s (Settle k outcome) = {| hooks := hooks s; inFlight := delete k (inFlight s) |}.
Proof.
  intros Hnone. cbn [step].
  destruct (inFlight s !! k) as [f|] eqn:Hk.
  - destruct (getGameState_undelivered outcome (issuedBy f) (area f) Hnone) as [e ->]. done.
  - apply lookup_ge_None in Hk.
    destruct s as [env fetches]. cbn in *. f_equal.
    revert k Hk. induction fetches as [|f fetches IH]; intros [|k] Hk; cbn in *;
      try done; try lia.
    f_equal. apply IH. lia.
Qed.

Lemma failed_fetch_changes_nothing_witness :
  step fetching (Settle 0 (Throw (Error "Network Error")))
  = {| hooks := hooks fetching; inFlight := delete 0%nat (inFlight fetching) |}.
Proof.
  apply (failed_fetch_changes_nothing fetching 0 (Throw (Error "Network Error"))).
  reflexivity.
Defined.

(** X11. When a fetch in flight settles with a game state, the element on
    display becomes the view that [constructBoards] of the closure that
    issued the fetch derives from that state, and the next run of the body
    returns it; the rest of the closure stays as it was. *)
Theorem settled_state_is_displayed (s : Session) (k : nat) (f : Fetch)
    (outcome : Completion (TSC.AxiosResponse TSC.GameStateResponse))
    (gameState : GameState) :
  inFlight s !! k = Some f → delivers outcome = Some gameState →
  element (hooks (step s (Settle k outcome))) = constructBoards (issuedBy f) gameState
  ∧ (GameBoard (step s (Settle k outcome))).2 = constructBoards (issuedBy f) gameState
  ∧ playerID (hooks (step s (Settle k outcome))) = playerID (hooks s)
  ∧ gameover (hooks (step s (Settle k outcome))) = gameover (hooks s)
  ∧ input (hooks (step s (Settle k outcome))) = input (hooks s).
Proof.
  intros Hk Hsome. cbn [step]. rewrite Hk.
  rewrite (getGameState_delivered outcome (issuedBy f) (area f) gameState Hsome).
  unfold setElement, GameBoard. cbn [fst snd hooks inFlight currentConversationArea element].
  destruct (currentConversationArea (hooks s)) as [convoArea|]; [|done].
  destruct (game convoArea); done.
Qed.

Lemma settled_state_is_displayed_witness :
  element (hooks (step fetching (Settle 0 (Normal (stateEnvelope scenario)))))
  = constructBoards (viewer "bob" false) scenario
  ∧ (GameBoard (step fetching (Settle 0 (Normal (stateEnvelope scenario))))).2
    = constructBoards (viewer "bob" false) scenario
  ∧ playerID (hooks (step fetching (Settle 0 (Normal (stateEnvelope scenario)))))
    = playerID (hooks fetching)
  ∧ gameover (hooks (step fetching (Settle 0 (Normal (stateEnvelope scenario)))))
    = gameover (hooks fetching)
  ∧ input (hooks (step fetching (Settle 0 (Normal (stateEnvelope scenario)))))
    = input (hooks fetching).
Proof.
  apply (settled_state_is_displayed fetching 0
           {| area := {| label := "lounge"; game := true |};
              issuedBy := viewer "bob" false |}
           (Normal (stateEnvelope scenario)) scenario); reflexivity.
Defined.

Lemma step_gameActive (s : Session) (ev : Event) :
  gameActive (hooks (step s ev)) = gameActive (hooks s).
Proof. unfold gameActive. by rewrite step_area. Qed.

Lemma body_without_game (s : Session) :
  gameActive (hooks s) = false → (GameBoard s).1 = s.
Proof.
  unfold gameActive, GameBoard. cbn [fst].
  destruct (currentConversationArea (hooks s)) as [convoArea|]; [|done].
  by intros ->.
Qed.

Lemma step_without_game (s : Session) (ev : Event) :
  gameActive (hooks s) = false →
  (length (inFlight (step s ev)) ≤ length (inFlight s))%nat
  ∧ (inFlight s = [] → step s ev = s).
Proof.
  intros Hidle. destruct ev as [|k outcome]; cbn [step].
  - by rewrite body_without_game.
  - split; [|by intros ->].
    destruct (inFlight s !! k) as [f|] eqn:Hk; [|done].
    assert (length (delete k (inFlight s)) ≤ length (inFlight s))%nat as Hlen.
    { rewrite length_delete by done. lia. }
    destruct (getGameState _ _ _) as [[gameState|]|e]; try done.
    unfold setElement. rewrite body_without_game; done.
Qed.

Lemma step_keeps_going (s : Session) (ev : Event) :
  gameActive (hooks s) = true → keepsGoing ev →
  (length (inFlight s) ≤ length (inFlight (step s ev)))%nat.
Proof.
  intros Hactive Hev. destruct ev as [|k outcome].
  - destruct (activate_fetches s Hactive) as [_ ->]. lia.
  - destruct Hev as [gameState Hsome]. cbn [step].
    destruct (inFlight s !! k) as [f|] eqn:Hk; [|done].
    rewrite (getGameState_delivered outcome (issuedBy f) (area f) gameState Hsome).
    unfold setElement, GameBoard. cbn [fst hooks inFlight currentConversationArea].
    unfold gameActive in Hactive.
    destruct (currentConversationArea (hooks s)) as [convoArea|]; [|done].
    rewrite Hactive. cbn [inFlight]. rewrite length_app, length_delete by done.
    apply lookup_lt_Some in Hk. cbn [length]. lia.
Qed.

(** X12. While the area of the component has no game, or the player is in
    no area, no fetch is ever issued: whatever happens, no more fetches are
    in flight than before, and a component with nothing in flight stays
    exactly as it is. *)
Theorem no_game_no_fetch (s : Session) (events : list Event) :
  gameActive (hooks s) = false →
  (length (inFlight (run s events)) ≤ length (inFlight s))%nat
  ∧ (inFlight s = [] → run s events = s).
Proof.
  revert s. unfold run. induction events as [|ev events IH]; intros s Hidle; cbn [foldl].
  - done.
  - destruct (step_without_game s ev Hidle) as [Hlen Hsame].
    destruct (IH (step s ev)) as [IHlen IHsame]; [by rewrite step_gameActive|].
    split; [lia|]. intros Hnil. rewrite (Hsame Hnil) in IHsame |- *. by apply IHsame.
Qed.

Lemma no_game_no_fetch_witness :
  (length (inFlight (run idle [Activate; Settle 0 (Normal (stateEnvelope scenario)); Activate]))
   ≤ length (inFlight idle))%nat
  ∧ (inFlight idle = [] →
     run idle [Activate; Settle 0 (Normal (stateEnvelope scenario)); Activate] = idle).
Proof.
  apply (no_game_no_fetch idle
           [Activate; Settle 0 (Normal (stateEnvelope scenario)); Activate]).
  reflexivity.
Defined.

(** X13. While the area has a game and every fetch that settles delivers a
    game state, the number of fetches in flight never goes down, whatever
    the order of activations and settlements: once a fetch is in flight the
    loop does not come to rest. *)
Theorem loop_never_rests (s : Session) (events : list Event) :
  gameActive (hooks s) = true → Forall keepsGoing events →
  (length (inFlight s) ≤ length (inFlight (run s events)))%nat.
Proof.
  revert s. unfold run. induction events as [|ev events IH]; intros s Hactive Hevents;
    cbn [foldl].
  - done.
  - apply Forall_cons in Hevents as [Hev Hevents].
    pose proof (step_keeps_going s ev Hactive Hev) as Hstep.
    specialize (IH (step s ev)). rewrite step_gameActive in IH.
    specialize (IH Hactive Hevents). lia.
Qed.

Lemma loop_never_rests_witness :
  (length (inFlight fetching)
   ≤ length (inFlight (run fetching [Settle 0 (Normal (stateEnvelope scenario)); Activate;
                                     Settle 1 (Normal (stateEnvelope notStarted))])))%nat.
Proof.
  apply (loop_never_rests fetching
           [Settle 0 (Normal (stateEnvelope scenario)); Activate;
            Settle 1 (Normal (stateEnvelope notStarted))]).
  - reflexivity.
  - repeat constructor; eexists; reflexivity.
Defined.

(** ** Blank rows and guesses *)

(** X14. In the board of a present team, a row among the six is the blank
    row exactly when the team has no guess at its index: a guess whose
    letters are withheld is still told apart from a row not yet played, so
    every observer sees how many guesses a team has made. *)
Theorem blank_iff_no_guess (X : Team) (env : Closure) (gameState : GameState)
    (t : TeamState) (i : nat) :
  teamState X gameState = Some t → (i < 6)%nat →
  (rowsOf X env gameState !! i = Some BlankRow ↔ guesses t !! i = None).
Proof.
  intros Ht Hi. split.
  - intros Hrow. destruct (guesses t !! i) as [g|] eqn:Hg; [|done].
    rewrite (rowsOf_guess X env gameState t i g Ht Hi Hg) in Hrow.
    injection Hrow as Hrow. discriminate Hrow.
  - by apply rowsOf_blank.
Qed.

Lemma blank_iff_no_guess_witness :
  rowsOf Red (viewer "bob" false) scenario !! 2%nat = Some BlankRow
  ↔ guesses teamOne !! 2%nat = None.
Proof.
  apply (blank_iff_no_guess Red (viewer "bob" false) scenario teamOne 2);
    [reflexivity | lia].
Defined.
